(** * MmkvHostObject: the JSI binding of the MMKV key-value engine

    A shallow embedding of [cpp/MmkvHostObject.cpp].  The host object owns a
    pointer to an MMKV engine instance and resolves script-side property
    names to host functions; every host function validates the shape of its
    arguments and forwards to one or two engine operations.

    The engine itself is an external collaborator.  It is represented by an
    interface (the class [MMKV] below); a host function is a small program
    over that interface which either returns a script value, throws a
    script-level error, or performs an engine call and continues. *)

From Stdlib Require Import ZArith Lia Bool DecimalString.
From Stdlib Require Import Floats.SpecFloat.
From stdpp Require Import base strings list gmap.

Local Open Scope Z_scope.

(** ** Machine data *)

(** [std::string] is a sequence of 8-bit characters: [string]. *)

(** [double]: IEEE 754 binary64, with the standard library's specification
    of floating-point data (53 bits of precision, maximal exponent 1024). *)
Definition double : Type := spec_float.

(** Conversion of an integer to [double], rounding to nearest-even. *)
Definition double_of_Z (z : Z) : double := binary_normalize 53 1024 z 0 false.

Definition INT_MAX : Z := 2147483647.

(** [static_cast<int>(n)] for [n : size_t]: the value modulo 2^32, read as a
    two's-complement 32-bit integer. *)
Definition static_cast_int (n : Z) : Z :=
  let m := n mod 2 ^ 32 in
  if m <=? INT_MAX then m else m - 2 ^ 32.

(** [std::to_string(count)] for [count : size_t]. *)
Definition to_string (count : nat) : string :=
  NilZero.string_of_uint (Nat.to_uint count).

(** ** Script values ([jsi::Value]) *)

(** The host functions created by [MmkvHostObject::get]; each constructor
    stands for the lambda of one branch. *)
Inductive HostFn : Type :=
| FnSet | FnGetBoolean | FnGetNumber | FnGetString | FnGetBuffer
| FnContains | FnDelete | FnGetAllKeys | FnClearAll | FnRecrypt | FnTrim.

Module jsi.

Inductive Value : Type :=
| Undefined
| Null
| Boolean (b : bool)
| Number (d : double)
| Symbol
| BigInt
| String (utf8 : string)
| Object (o : Obj)
with Obj : Type :=
| ArrayBuffer (data : list Byte.byte)
| Array (elems : list Value)
| Function (name : string) (paramCount : nat) (body : HostFn)
| PlainObject.

Definition isUndefined (v : Value) : bool :=
  match v with Undefined => true | _ => false end.
Definition isBool (v : Value) : bool :=
  match v with Boolean _ => true | _ => false end.
Definition isNumber (v : Value) : bool :=
  match v with Number _ => true | _ => false end.
Definition isString (v : Value) : bool :=
  match v with String _ => true | _ => false end.
Definition isObject (v : Value) : bool :=
  match v with Object _ => true | _ => false end.
Definition isArrayBuffer (o : Obj) : bool :=
  match o with ArrayBuffer _ => true | _ => false end.

(** [getBool] and [getNumber] are only meaningful under the matching
    kind test; the default arm is never reached by the binding. *)
Definition getBool (v : Value) : bool :=
  match v with Boolean b => b | _ => false end.
Definition getNumber (v : Value) : double :=
  match v with Number d => d | _ => S754_zero false end.

(** [getString(rt).utf8(rt)] and [getArrayBuffer(rt)], under the matching
    test as well. *)
Definition getString (v : Value) : string :=
  match v with String s => s | _ => EmptyString end.
Definition getArrayBuffer (o : Obj) : list Byte.byte :=
  match o with ArrayBuffer data => data | _ => [] end.

(** A value that is an object of type ArrayBuffer. *)
Definition holdsArrayBuffer (v : Value) : bool :=
  match v with Object o => isArrayBuffer o | _ => false end.

(** [jsi::Value(int)]: a number holding the integer. *)
Definition of_int (i : Z) : Value := Number (double_of_Z i).

End jsi.

(** ** The engine interface ([class MMKV]) *)

(** The engine operations the binding uses, as they appear at the call
    sites.  The four overloads of [set] are told apart by the type of the
    stored value.  [getBool] and [getDouble] take the default value and
    answer the value together with the [hasValue] out-parameter;
    [getString] and [getBytes] fill a result and answer [hasValue]. *)
Module mmkv.

Inductive Call : Type :=
| set_bool (value : bool) (key : string)
| set_double (value : double) (key : string)
| set_string (value : string) (key : string)
| set_bytes (value : list Byte.byte) (key : string)
| getBool (key : string) (defaultValue : bool)
| getDouble (key : string) (defaultValue : double)
| getString (key : string)
| getBytes (key : string)
| containsKey (key : string)
| removeValueForKey (key : string)
| allKeys
| clearAll
| reKey (cryptKey : string)
| clearMemoryCache
| trim
| actualSize.

(** What a call answers to the binding.  Results the binding discards are
    [unit]. *)
Definition Resp (c : Call) : Type :=
  match c with
  | set_bool _ _ | set_double _ _ | set_string _ _ | set_bytes _ _ => unit
  | getBool _ _ => (bool * bool)%type
  | getDouble _ _ => (double * bool)%type
  | getString _ => (string * bool)%type
  | getBytes _ => (list Byte.byte * bool)%type
  | containsKey _ => bool
  | removeValueForKey _ => unit
  | allKeys => list string
  | clearAll => unit
  | reKey _ => unit
  | clearMemoryCache => unit
  | trim => unit
  | actualSize => Z
  end.

(** Calls made only for their effect on the engine (a statement whose
    result, if any, is dropped), as opposed to queries. *)
Definition effectful (c : Call) : bool :=
  match c with
  | set_bool _ _ | set_double _ _ | set_string _ _ | set_bytes _ _
  | removeValueForKey _ | clearAll | reKey _ | clearMemoryCache | trim => true
  | _ => false
  end.

End mmkv.

(** An engine: a type of instance states with a handler for every call.
    Every operation may change the instance (none is [const]). *)
Class MMKV (T : Type) : Type :=
  perform : forall c : mmkv.Call, T -> mmkv.Resp c * T.

(** ** Host-function programs *)

(** The body of a host function: it returns, throws a [jsi::JSError], or
    calls the engine and continues with the answer. *)
Inductive Prog (A : Type) : Type :=
| Ret (a : A)
| Throw (message : string)
| Invoke (c : mmkv.Call) (k : mmkv.Resp c -> Prog A).

Arguments Ret {A} a.
Arguments Throw {A} message.
Arguments Invoke {A} c k.

Fixpoint bind {A B} (p : Prog A) (f : A -> Prog B) : Prog B :=
  match p with
  | Ret a => f a
  | Throw m => Throw m
  | Invoke c k => Invoke c (fun r => bind (k r) f)
  end.

Definition call (c : mmkv.Call) : Prog (mmkv.Resp c) := Invoke c Ret.

Declare Scope prog_scope.
Delimit Scope prog_scope with prog.
Notation "x <- p ;; q" := (bind p (fun x => q))
  (at level 100, p at next level, right associativity) : prog_scope.
Notation "p ;; q" := (bind p (fun _ => q))
  (at level 100, right associativity) : prog_scope.
Local Open Scope prog_scope.

(** How a host function ends. *)
Inductive Outcome (A : Type) : Type :=
| Returned (a : A)
| Thrown (message : string).

Arguments Returned {A} a.
Arguments Thrown {A} message.

Definition is_thrown {A} (o : Outcome A) : bool :=
  match o with Thrown _ => true | Returned _ => false end.

(** The result of running a program: its outcome, the final state of the
    engine instance, and the engine calls it made, in order. *)
Record Run (A T : Type) : Type := mkRun {
  outcome : Outcome A;
  final : T;
  calls : list mmkv.Call
}.

Arguments mkRun {A T} outcome final calls.
Arguments outcome {A T} r.
Arguments final {A T} r.
Arguments calls {A T} r.

Fixpoint run {A T} `{MMKV T} (p : Prog A) (s : T) : Run A T :=
  match p with
  | Ret a => mkRun (Returned a) s []
  | Throw m => mkRun (Thrown m) s []
  | Invoke c k =>
      let answer := perform c s in
      let rest := run (k answer.1) answer.2 in
      mkRun (outcome rest) (final rest) (c :: calls rest)
  end.

(** [asString(rt).utf8(rt)] and [asObject(rt)] check the kind and raise the
    runtime's own error on a mismatch. *)
Definition asString (v : jsi.Value) : Prog string :=
  match v with
  | jsi.String s => Ret s
  | _ => Throw "Value is not a String"
  end.

Definition asObject (v : jsi.Value) : Prog jsi.Obj :=
  match v with
  | jsi.Object o => Ret o
  | _ => Throw "Value is not an Object"
  end.

(** ** [MmkvHostObject::getPropertyNames] *)

Definition getPropertyNames : list string :=
  [ "set"; "getBoolean"; "getBuffer"; "getString"; "getNumber"; "contains";
    "delete"; "getAllKeys"; "deleteAll"; "recrypt"; "trim"; "size" ].

(** ** The host functions of [MmkvHostObject::get] *)

Section HostFunctions.

Variable arguments : list jsi.Value.

(** [count] and [arguments[i]] of a host-function call. *)
Let count : nat := length arguments.
Let argument (i : nat) : jsi.Value := nth i arguments jsi.Undefined.

(** [MMKV.set(key, value)] *)
Definition fnSet : Prog jsi.Value :=
  if negb (count =? 2)%nat || negb (jsi.isString (argument 0)) then
    Throw "MMKV::set: First argument ('key') has to be of type string!"
  else
    keyName <- asString (argument 0) ;;
    (if jsi.isBool (argument 1) then
       call (mmkv.set_bool (jsi.getBool (argument 1)) keyName)
     else if jsi.isNumber (argument 1) then
       call (mmkv.set_double (jsi.getNumber (argument 1)) keyName)
     else if jsi.isString (argument 1) then
       stringValue <- asString (argument 1) ;;
       call (mmkv.set_string stringValue keyName)
     else if jsi.isObject (argument 1) then
       object <- asObject (argument 1) ;;
       if jsi.isArrayBuffer object then
         call (mmkv.set_bytes (jsi.getArrayBuffer object) keyName)
       else
         Throw "MMKV::set: 'value' argument is an object, but not of type ArrayBuffer!"
     else
       Throw "MMKV::set: 'value' argument is not of type bool, number, string or buffer!") ;;
    Ret jsi.Undefined.

(** [MMKV.getBoolean(key)] *)
Definition fnGetBoolean : Prog jsi.Value :=
  if negb (count =? 1)%nat || negb (jsi.isString (argument 0)) then
    Throw "First argument ('key') has to be of type string!"
  else
    keyName <- asString (argument 0) ;;
    answer <- call (mmkv.getBool keyName false) ;;
    let value := answer.1 in
    let hasValue := answer.2 in
    if negb hasValue then Ret jsi.Undefined
    else Ret (jsi.Boolean value).

(** [MMKV.getNumber(key)] *)
Definition fnGetNumber : Prog jsi.Value :=
  if negb (count =? 1)%nat || negb (jsi.isString (argument 0)) then
    Throw "First argument ('key') has to be of type string!"
  else
    keyName <- asString (argument 0) ;;
    answer <- call (mmkv.getDouble keyName (S754_zero false)) ;;
    let value := answer.1 in
    let hasValue := answer.2 in
    if negb hasValue then Ret jsi.Undefined
    else Ret (jsi.Number value).

(** [MMKV.getString(key)] *)
Definition fnGetString : Prog jsi.Value :=
  if negb (count =? 1)%nat || negb (jsi.isString (argument 0)) then
    Throw "First argument ('key') has to be of type string!"
  else
    keyName <- asString (argument 0) ;;
    answer <- call (mmkv.getString keyName) ;;
    let result := answer.1 in
    let hasValue := answer.2 in
    if negb hasValue then Ret jsi.Undefined
    else Ret (jsi.String result).

(** [MMKV.getBuffer(key)] *)
Definition fnGetBuffer : Prog jsi.Value :=
  if negb (count =? 1)%nat || negb (jsi.isString (argument 0)) then
    Throw "First argument ('key') has to be of type string!"
  else
    keyName <- asString (argument 0) ;;
    answer <- call (mmkv.getBytes keyName) ;;
    let buffer := answer.1 in
    let hasValue := answer.2 in
    if negb hasValue then Ret jsi.Undefined
    else Ret (jsi.Object (jsi.ArrayBuffer buffer)).

(** [MMKV.contains(key)] *)
Definition fnContains : Prog jsi.Value :=
  if negb (count =? 1)%nat || negb (jsi.isString (argument 0)) then
    Throw "First argument ('key') has to be of type string!"
  else
    keyName <- asString (argument 0) ;;
    containsKey <- call (mmkv.containsKey keyName) ;;
    Ret (jsi.Boolean containsKey).

(** [MMKV.delete(key)] *)
Definition fnDelete : Prog jsi.Value :=
  if negb (count =? 1)%nat || negb (jsi.isString (argument 0)) then
    Throw "First argument ('key') has to be of type string!"
  else
    keyName <- asString (argument 0) ;;
    call (mmkv.removeValueForKey keyName) ;;
    Ret jsi.Undefined.

(** [MMKV.getAllKeys()]: an array of the size of [keys], filled index by
    index with the keys as strings. *)
Definition fnGetAllKeys : Prog jsi.Value :=
  keys <- call mmkv.allKeys ;;
  Ret (jsi.Object (jsi.Array (map jsi.String keys))).

(** [MMKV.clearAll()] *)
Definition fnClearAll : Prog jsi.Value :=
  call mmkv.clearAll ;;
  Ret jsi.Undefined.

(** [MMKV.recrypt(encryptionKey)] *)
Definition fnRecrypt : Prog jsi.Value :=
  if negb (count =? 1)%nat then
    Throw ("Expected 1 argument (encryptionKey), but received "
             +:+ to_string count +:+ "!")
  else
    (if jsi.isUndefined (argument 0) then
       call (mmkv.reKey "")
     else if jsi.isString (argument 0) then
       let encryptionKey := jsi.getString (argument 0) in
       call (mmkv.reKey encryptionKey)
     else
       Throw "First argument ('encryptionKey') has to be of type string (or undefined)!") ;;
    Ret jsi.Undefined.

(** [MMKV.trim()] *)
Definition fnTrim : Prog jsi.Value :=
  call mmkv.clearMemoryCache ;;
  call mmkv.trim ;;
  Ret jsi.Undefined.

End HostFunctions.

(** Calling a host function with the given arguments. *)
Definition invoke (f : HostFn) (arguments : list jsi.Value) : Prog jsi.Value :=
  match f with
  | FnSet => fnSet arguments
  | FnGetBoolean => fnGetBoolean arguments
  | FnGetNumber => fnGetNumber arguments
  | FnGetString => fnGetString arguments
  | FnGetBuffer => fnGetBuffer arguments
  | FnContains => fnContains arguments
  | FnDelete => fnDelete arguments
  | FnGetAllKeys => fnGetAllKeys
  | FnClearAll => fnClearAll
  | FnRecrypt => fnRecrypt arguments
  | FnTrim => fnTrim
  end.

(** ** [MmkvHostObject::get] *)

(** [jsi::Function::createFromHostFunction(rt, name, paramCount, body)] *)
Definition createFromHostFunction
    (name : string) (paramCount : nat) (body : HostFn) : jsi.Value :=
  jsi.Object (jsi.Function name paramCount body).

Definition get (propName : string) : Prog jsi.Value :=
  let funcName := "MMKV." +:+ propName in
  if String.eqb propName "set" then
    Ret (createFromHostFunction funcName 2 FnSet)
  else if String.eqb propName "getBoolean" then
    Ret (createFromHostFunction funcName 1 FnGetBoolean)
  else if String.eqb propName "getNumber" then
    Ret (createFromHostFunction funcName 1 FnGetNumber)
  else if String.eqb propName "getString" then
    Ret (createFromHostFunction funcName 1 FnGetString)
  else if String.eqb propName "getBuffer" then
    Ret (createFromHostFunction funcName 1 FnGetBuffer)
  else if String.eqb propName "contains" then
    Ret (createFromHostFunction funcName 1 FnContains)
  else if String.eqb propName "delete" then
    Ret (createFromHostFunction funcName 1 FnDelete)
  else if String.eqb propName "getAllKeys" then
    Ret (createFromHostFunction funcName 0 FnGetAllKeys)
  else if String.eqb propName "clearAll" then
    Ret (createFromHostFunction funcName 0 FnClearAll)
  else if String.eqb propName "recrypt" then
    Ret (createFromHostFunction funcName 1 FnRecrypt)
  else if String.eqb propName "trim" then
    Ret (createFromHostFunction funcName 0 FnTrim)
  else if String.eqb propName "size" then
    size <- call mmkv.actualSize ;;
    Ret (jsi.of_int (static_cast_int size))
  else
    Ret jsi.Undefined.

(** ** Construction *)

Module react.

(** [facebook::react::MmkvCxxMode]; [InvalidMode] stands for any other
    value of the underlying integer. *)
Inductive MmkvCxxMode : Type :=
| SINGLE_PROCESS
| MULTI_PROCESS
| InvalidMode (raw : Z).

(** [facebook::react::MMKVConfig] *)
Record MMKVConfig : Type := {
  id : string;
  path : option string;
  encryptionKey : option string;
  mode : option MmkvCxxMode
}.

End react.

Inductive MMKVMode : Type := MMKV_SINGLE_PROCESS | MMKV_MULTI_PROCESS.

(** [MMKV::mmkvWithID(id, mode, encryptionKeyPtr, pathPtr)]: the instance,
    or [None] for [nullptr].  (Off Apple platforms the call also passes the
    constant [DEFAULT_MMAP_SIZE].) *)
Class MMKVFactory (T : Type) : Type :=
  mmkvWithID : string -> MMKVMode -> option string -> option string -> option T.

Record MmkvHostObject (T : Type) : Type := { instance : T }.

Arguments Build_MmkvHostObject {T} instance.
Arguments instance {T} m.

(** [MmkvHostObject::getMMKVMode]; [Thrown] is a [std::runtime_error]. *)
Definition getMMKVMode (config : react.MMKVConfig) : Outcome MMKVMode :=
  match react.mode config with
  | None => Returned MMKV_SINGLE_PROCESS
  | Some react.SINGLE_PROCESS => Returned MMKV_SINGLE_PROCESS
  | Some react.MULTI_PROCESS => Returned MMKV_MULTI_PROCESS
  | Some (react.InvalidMode _) => Thrown "Invalid MMKV Mode value!"
  end.

(** [s.size() > 0 ? &s : nullptr] *)
Definition ptr_if_nonempty (s : string) : option string :=
  if (0 <? String.length s)%nat then Some s else None.

(** [MmkvHostObject::MmkvHostObject(config)]; logging is left out. *)
Definition MmkvHostObject_new {T} `{MMKVFactory T}
    (config : react.MMKVConfig) : Outcome (MmkvHostObject T) :=
  let path := default "" (react.path config) in
  let encryptionKey := default "" (react.encryptionKey config) in
  let pathPtr := ptr_if_nonempty path in
  let encryptionKeyPtr := ptr_if_nonempty encryptionKey in
  match getMMKVMode config with
  | Thrown m => Thrown m
  | Returned mode =>
      match mmkvWithID (react.id config) mode encryptionKeyPtr pathPtr with
      | Some inst => Returned (Build_MmkvHostObject inst)
      | None =>
          if String.eqb (react.id config) "" then
            Thrown "Failed to create MMKV instance! `id` cannot be empty!"
          else if (16 <? String.length encryptionKey)%nat then
            Thrown "Failed to create MMKV instance! `encryptionKey` cannot be longer than 16 bytes!"
          else
            Thrown "Failed to create MMKV instance!"
      end
  end.

(** ** The engine's contract *)

(** Modelled from the spec: the MMKV engine is consumed through a fixed API
    and its implementation is not part of the binding's source.  The
    operations are taken at their stated purpose: a boolean written with
    [set] is what [getBool] reads back; a key the engine does not contain
    has no value for any getter; [removeValueForKey] leaves what is stored
    under every other key as it was. *)
Class MMKVContract (T : Type) `{MMKV T} : Prop := {
  getBool_set_bool (s : T) (k : string) (b d : bool) :
    (perform (mmkv.getBool k d) (perform (mmkv.set_bool b k) s).2).1 = (b, true);
  getBool_absent (s : T) (k : string) (d : bool) :
    (perform (mmkv.containsKey k) s).1 = false ->
    (perform (mmkv.getBool k d) s).1.2 = false;
  getDouble_absent (s : T) (k : string) (d : double) :
    (perform (mmkv.containsKey k) s).1 = false ->
    (perform (mmkv.getDouble k d) s).1.2 = false;
  getString_absent (s : T) (k : string) :
    (perform (mmkv.containsKey k) s).1 = false ->
    (perform (mmkv.getString k) s).1.2 = false;
  getBytes_absent (s : T) (k : string) :
    (perform (mmkv.containsKey k) s).1 = false ->
    (perform (mmkv.getBytes k) s).1.2 = false;
  getBool_remove_other (s : T) (k k' : string) (d : bool) :
    k <> k' ->
    (perform (mmkv.getBool k' d) (perform (mmkv.removeValueForKey k) s).2).1
    = (perform (mmkv.getBool k' d) s).1;
  getDouble_remove_other (s : T) (k k' : string) (d : double) :
    k <> k' ->
    (perform (mmkv.getDouble k' d) (perform (mmkv.removeValueForKey k) s).2).1
    = (perform (mmkv.getDouble k' d) s).1;
  getString_remove_other (s : T) (k k' : string) :
    k <> k' ->
    (perform (mmkv.getString k') (perform (mmkv.removeValueForKey k) s).2).1
    = (perform (mmkv.getString k') s).1;
  getBytes_remove_other (s : T) (k k' : string) :
    k <> k' ->
    (perform (mmkv.getBytes k') (perform (mmkv.removeValueForKey k) s).2).1
    = (perform (mmkv.getBytes k') s).1;
  containsKey_remove_other (s : T) (k k' : string) :
    k <> k' ->
    (perform (mmkv.containsKey k') (perform (mmkv.removeValueForKey k) s).2).1
    = (perform (mmkv.containsKey k') s).1
}.

(** ** A reference engine *)

(** Modelled from the spec: an in-memory stand-in for the external MMKV
    engine, used to run the binding on concrete inputs.  It keeps a typed
    value per key and a byte count for [actualSize]; storage format,
    encryption, caching and compaction are outside the binding, so [reKey],
    [clearMemoryCache] and [trim] leave the stored values alone. *)
Module reference.

Inductive Stored : Type :=
| SBool (b : bool)
| SDouble (d : double)
| SString (s : string)
| SBytes (data : list Byte.byte).

Record Store : Type := mkStore {
  dict : gmap string Stored;
  actual : Z
}.

Definition empty : Store := mkStore ∅ 0.

Definition put (k : string) (v : Stored) (s : Store) : Store :=
  mkStore (<[k := v]> (dict s)) (actual s + Z.of_nat (String.length k) + 8).

Definition remove (k : string) (s : Store) : Store :=
  mkStore (delete k (dict s)) (actual s).

Definition handle (c : mmkv.Call) : Store -> mmkv.Resp c * Store :=
  match c return Store -> mmkv.Resp c * Store with
  | mmkv.set_bool b k => fun s => (tt, put k (SBool b) s)
  | mmkv.set_double d k => fun s => (tt, put k (SDouble d) s)
  | mmkv.set_string v k => fun s => (tt, put k (SString v) s)
  | mmkv.set_bytes v k => fun s => (tt, put k (SBytes v) s)
  | mmkv.getBool k d => fun s =>
      (match dict s !! k with Some (SBool b) => (b, true) | _ => (d, false) end, s)
  | mmkv.getDouble k d => fun s =>
      (match dict s !! k with Some (SDouble x) => (x, true) | _ => (d, false) end, s)
  | mmkv.getString k => fun s =>
      (match dict s !! k with Some (SString x) => (x, true) | _ => (EmptyString, false) end, s)
  | mmkv.getBytes k => fun s =>
      (match dict s !! k with Some (SBytes x) => (x, true) | _ => ([], false) end, s)
  | mmkv.containsKey k => fun s => (bool_decide (is_Some (dict s !! k)), s)
  | mmkv.removeValueForKey k => fun s => (tt, remove k s)
  | mmkv.allKeys => fun s => ((map_to_list (dict s)).*1, s)
  | mmkv.clearAll => fun _ => (tt, empty)
  | mmkv.reKey _ => fun s => (tt, s)
  | mmkv.clearMemoryCache => fun s => (tt, s)
  | mmkv.trim => fun s => (tt, s)
  | mmkv.actualSize => fun s => (actual s, s)
  end.

#[global] Instance engine : MMKV Store := handle.

(** Creation fails on an empty id and on an encryption key of more than 16
    bytes, and yields an empty store otherwise. *)
#[global] Instance factory : MMKVFactory Store :=
  fun id _ encryptionKeyPtr _ =>
    if String.eqb id "" then None
    else if (16 <? String.length (default "" encryptionKeyPtr))%nat then None
    else Some empty.

(** A store holding [n] bytes in no key. *)
Definition of_size (n : Z) : Store := mkStore ∅ n.

End reference.

(** ** Vocabulary and sample data for the properties *)

(** The host functions that read what is stored under a key. *)
Definition readers : list HostFn :=
  [FnGetBoolean; FnGetNumber; FnGetString; FnGetBuffer; FnContains].

(** A store with a boolean and a string, built through the binding. *)
Definition sample_store : reference.Store :=
  final (run (invoke FnSet [jsi.String "token"; jsi.String "abc"])
           (final (run (invoke FnSet [jsi.String "darkMode"; jsi.Boolean true])
                     reference.empty))).

(** A configuration with an empty id and an encryption key of 17 bytes. *)
Definition empty_id_oversized_key_config : react.MMKVConfig :=
  {| react.id := "";
     react.path := None;
     react.encryptionKey := Some "0123456789abcdefg";
     react.mode := None |}.

(** A configuration whose encryption key has 17 bytes. *)
Definition oversized_key_config : react.MMKVConfig :=
  {| react.id := "user.storage";
     react.path := None;
     react.encryptionKey := Some "0123456789abcdefg";
     react.mode := Some react.MULTI_PROCESS |}.

(** The least [int]. *)
Definition INT_MIN : Z := -2147483648.

(** The host functions whose only parameter is a key. *)
Definition key_functions : list HostFn :=
  [FnGetBoolean; FnGetNumber; FnGetString; FnGetBuffer; FnContains; FnDelete].

(** The host functions declared with no parameter. *)
Definition nullary_functions : list HostFn :=
  [FnGetAllKeys; FnClearAll; FnTrim].

(** The fixed texts of the [jsi::JSError]s thrown in [MmkvHostObject::get];
    the count error of [recrypt] is built from the argument count. *)
Definition error_messages : list string :=
  [ "MMKV::set: First argument ('key') has to be of type string!";
    "MMKV::set: 'value' argument is an object, but not of type ArrayBuffer!";
    "MMKV::set: 'value' argument is not of type bool, number, string or buffer!";
    "First argument ('key') has to be of type string!";
    "First argument ('encryptionKey') has to be of type string (or undefined)!" ].

Definition recrypt_count_error (count : nat) : string :=
  "Expected 1 argument (encryptionKey), but received " +:+ to_string count +:+ "!".

(** A configuration with a usable id and key but a mode outside the
    enumeration. *)
Definition invalid_mode_config : react.MMKVConfig :=
  {| react.id := "user.storage";
     react.path := None;
     react.encryptionKey := None;
     react.mode := Some (react.InvalidMode 2) |}.

(** Two configurations that differ only in how they leave path, key and
    mode unset. *)
Definition empty_optionals_config : react.MMKVConfig :=
  {| react.id := "user.storage";
     react.path := Some "";
     react.encryptionKey := Some "";
     react.mode := None |}.

Definition absent_optionals_config : react.MMKVConfig :=
  {| react.id := "user.storage";
     react.path := None;
     react.encryptionKey := None;
     react.mode := Some react.SINGLE_PROCESS |}.

(** * Properties *)

(** ** Running programs *)

Section RunLemmas.

Context {T : Type} `{MMKV T}.

Lemma run_bind {A B} (p : Prog A) (f : A -> Prog B) (s : T) :
  run (bind p f) s =
  match outcome (run p s) with
  | Returned a =>
      let rest := run (f a) (final (run p s)) in
      mkRun (outcome rest) (final rest) (calls (run p s) ++ calls rest)
  | Thrown m => mkRun (Thrown m) (final (run p s)) (calls (run p s))
  end.
Proof.
  revert s. induction p as [a | m | c k IH]; intros s; cbn.
  - by destruct (run (f a) s).
  - done.
  - rewrite IH. by destruct (outcome (run (k _) _)).
Qed.

End RunLemmas.

(** The reference engine keeps the contract. *)
Lemma reference_contract : MMKVContract reference.Store.
Proof.
  split; cbn.
  - intros s k b d. by rewrite lookup_insert_eq.
  - intros s k d Habsent%bool_decide_eq_false.
    by rewrite (proj2 (eq_None_not_Some _) Habsent).
  - intros s k d Habsent%bool_decide_eq_false.
    by rewrite (proj2 (eq_None_not_Some _) Habsent).
  - intros s k Habsent%bool_decide_eq_false.
    by rewrite (proj2 (eq_None_not_Some _) Habsent).
  - intros s k Habsent%bool_decide_eq_false.
    by rewrite (proj2 (eq_None_not_Some _) Habsent).
  - intros s k k' d Hne. by rewrite lookup_delete_ne.
  - intros s k k' d Hne. by rewrite lookup_delete_ne.
  - intros s k k' Hne. by rewrite lookup_delete_ne.
  - intros s k k' Hne. by rewrite lookup_delete_ne.
  - intros s k k' Hne. by rewrite lookup_delete_ne.
Qed.

(** Every name [get] resolves to a host function, with the function's
    name and declared parameter count. *)
Lemma get_resolves_functions :
  get "set" = Ret (createFromHostFunction "MMKV.set" 2 FnSet) /\
  get "getBoolean" = Ret (createFromHostFunction "MMKV.getBoolean" 1 FnGetBoolean) /\
  get "getNumber" = Ret (createFromHostFunction "MMKV.getNumber" 1 FnGetNumber) /\
  get "getString" = Ret (createFromHostFunction "MMKV.getString" 1 FnGetString) /\
  get "getBuffer" = Ret (createFromHostFunction "MMKV.getBuffer" 1 FnGetBuffer) /\
  get "contains" = Ret (createFromHostFunction "MMKV.contains" 1 FnContains) /\
  get "delete" = Ret (createFromHostFunction "MMKV.delete" 1 FnDelete) /\
  get "getAllKeys" = Ret (createFromHostFunction "MMKV.getAllKeys" 0 FnGetAllKeys) /\
  get "recrypt" = Ret (createFromHostFunction "MMKV.recrypt" 1 FnRecrypt) /\
  get "trim" = Ret (createFromHostFunction "MMKV.trim" 0 FnTrim).
Proof. repeat split. Qed.

(** Case analysis on the shape of an argument list and on the kind of its
    first two values. *)
Ltac by_shape arguments :=
  destruct arguments as [ | [ | | | | | | | [ | | | ] ]
                            [ | [ | | | | | | | [ | | | ] ] [ | ? ? ] ] ];
  cbn; try done.

(** ** Property resolution *)

(** C1, as the code has it: the advertised name [deleteAll] is not resolved.
    [getPropertyNames] lists [deleteAll] and not [clearAll], while [get]
    answers undefined for [deleteAll], without touching the engine, and
    keeps the function that forwards to the engine's [clearAll] under the
    name [clearAll]. *)
Theorem get_deleteAll_undefined :
  In "deleteAll" getPropertyNames /\
  ~ In "clearAll" getPropertyNames /\
  get "deleteAll" = Ret jsi.Undefined /\
  get "clearAll" = Ret (createFromHostFunction "MMKV.clearAll" 0 FnClearAll) /\
  forall T (E : MMKV T) (s : T) (arguments : list jsi.Value),
    run (invoke FnClearAll arguments) s
    = mkRun (Returned jsi.Undefined) (perform mmkv.clearAll s).2 [mmkv.clearAll].
Proof.
  split; [cbn; tauto | split]; [ | done].
  cbn. intros Hin. repeat destruct Hin as [Heq | Hin]; done.
Qed.

(** ** recrypt *)

(** C2, the claim as stated fails: [recrypt] called with no argument throws
    a script-level error. *)
Lemma recrypt_without_argument_throws :
  outcome (run (invoke FnRecrypt []) reference.empty)
  = Thrown "Expected 1 argument (encryptionKey), but received 0!".
Proof. reflexivity. Qed.

(** C2, amended: [recrypt] takes exactly one argument.  Called with one
    argument that is undefined or a string it returns undefined without
    raising; one argument of another type is rejected; any other number of
    arguments, zero included, is rejected with the count in the message. *)
Theorem recrypt_argument_shape T (E : MMKV T) (s : T) (arguments : list jsi.Value) :
  outcome (run (invoke FnRecrypt arguments) s) =
  match arguments with
  | [v] =>
      if jsi.isUndefined v || jsi.isString v then Returned jsi.Undefined
      else Thrown "First argument ('encryptionKey') has to be of type string (or undefined)!"
  | _ =>
      Thrown ("Expected 1 argument (encryptionKey), but received "
                +:+ to_string (length arguments) +:+ "!")
  end.
Proof.
  destruct arguments as [ | v [ | w rest ] ]; [done | | done].
  destruct v as [ | | | | | | | [ | | | ] ]; done.
Qed.

(** ** set and getBoolean *)

(** C3: on an engine that keeps its contract, [set(k, b)] with a boolean
    [b] returns undefined, and a following [getBoolean(k)] on the same
    instance returns [b]. *)
Theorem set_boolean_then_getBoolean T (E : MMKV T) (C : MMKVContract T)
    (s : T) (k : string) (b : bool) :
  let stored := run (invoke FnSet [jsi.String k; jsi.Boolean b]) s in
  outcome stored = Returned jsi.Undefined /\
  outcome (run (invoke FnGetBoolean [jsi.String k]) (final stored))
  = Returned (jsi.Boolean b).
Proof.
  pose proof (getBool_set_bool s k b false) as Hread.
  cbn in *. split; [done | ].
  by rewrite Hread.
Qed.

Lemma set_boolean_then_getBoolean_witness :
  MMKVContract reference.Store /\
  outcome (run (invoke FnGetBoolean [jsi.String "darkMode"])
             (final (run (invoke FnSet [jsi.String "darkMode"; jsi.Boolean true])
                       reference.empty)))
  = Returned (jsi.Boolean true).
Proof.
  split; [exact reference_contract | ].
  exact (proj2 (set_boolean_then_getBoolean reference.Store _ reference_contract
                  reference.empty "darkMode" true)).
Defined.

(** ** Construction failures *)

(** C4, the claim as stated fails: with an empty id and an encryption key
    of more than 16 bytes, creation fails and the constructor throws the
    error about the id, not the error about the encryption key. *)
Lemma empty_id_precedes_oversized_key :
  react.id empty_id_oversized_key_config = "" /\
  (16 < String.length
          (default "" (react.encryptionKey empty_id_oversized_key_config)))%nat /\
  mmkvWithID (T := reference.Store) "" MMKV_SINGLE_PROCESS
    (ptr_if_nonempty "0123456789abcdefg") (ptr_if_nonempty "") = None /\
  MmkvHostObject_new (T := reference.Store) empty_id_oversized_key_config
  = Thrown "Failed to create MMKV instance! `id` cannot be empty!" /\
  MmkvHostObject_new (T := reference.Store) empty_id_oversized_key_config
  <> Thrown "Failed to create MMKV instance! `encryptionKey` cannot be longer than 16 bytes!".
Proof.
  split; [reflexivity | ].
  split; [cbn; lia | ].
  split; [reflexivity | ].
  split; [reflexivity | discriminate].
Qed.

(** C4, amended: whenever [mmkvWithID] answers [nullptr] the constructor
    throws, and the checks run in the order id, then key: the error about
    the empty id when the configured id is empty, whatever the key; the
    error about the encryption key when the id is not empty and the key is
    longer than 16 bytes; the generic error when the id is not empty and
    the key has at most 16 bytes. *)
Theorem constructor_throws_when_creation_fails T (F : MMKVFactory T)
    (config : react.MMKVConfig) (mode : MMKVMode) :
  let encryptionKey := default "" (react.encryptionKey config) in
  let path := default "" (react.path config) in
  getMMKVMode config = Returned mode ->
  mmkvWithID (react.id config) mode
    (ptr_if_nonempty encryptionKey) (ptr_if_nonempty path) = None ->
  (exists message, MmkvHostObject_new config = Thrown message) /\
  (react.id config = "" ->
   MmkvHostObject_new config
   = Thrown "Failed to create MMKV instance! `id` cannot be empty!") /\
  (react.id config <> "" -> (16 < String.length encryptionKey)%nat ->
   MmkvHostObject_new config
   = Thrown "Failed to create MMKV instance! `encryptionKey` cannot be longer than 16 bytes!") /\
  (react.id config <> "" -> (String.length encryptionKey <= 16)%nat ->
   MmkvHostObject_new config = Thrown "Failed to create MMKV instance!").
Proof.
  intros encryptionKey path Hmode Hnull.
  unfold MmkvHostObject_new. fold encryptionKey path. rewrite Hmode, Hnull.
  destruct (String.eqb_spec (react.id config) "") as [Hid | Hid];
    destruct (Nat.ltb_spec 16 (String.length encryptionKey)) as [Hkey | Hkey].
  all: split; [by eexists | ].
  all: repeat split; intros; first [reflexivity | contradiction | lia].
Qed.

Lemma constructor_throws_when_creation_fails_witness :
  getMMKVMode oversized_key_config = Returned MMKV_MULTI_PROCESS /\
  mmkvWithID (T := reference.Store) "user.storage" MMKV_MULTI_PROCESS
    (ptr_if_nonempty "0123456789abcdefg") (ptr_if_nonempty "") = None /\
  MmkvHostObject_new (T := reference.Store) oversized_key_config
  = Thrown "Failed to create MMKV instance! `encryptionKey` cannot be longer than 16 bytes!".
Proof.
  split; [reflexivity | split; [reflexivity | ] ].
  apply (constructor_throws_when_creation_fails reference.Store _
           oversized_key_config MMKV_MULTI_PROCESS);
    [reflexivity | reflexivity | discriminate | cbn; lia].
Defined.

(** ** Argument validation of set *)

(** C5: [set] throws when it is not given exactly two arguments or when the
    first is not a string; it throws when the key is a string and the value
    is neither a boolean, a number, a string nor an ArrayBuffer; in every
    other case it returns undefined. *)
Theorem set_argument_validation T (E : MMKV T) (s : T) (arguments : list jsi.Value) :
  let result := outcome (run (invoke FnSet arguments) s) in
  let supported v :=
    jsi.isBool v || jsi.isNumber v || jsi.isString v || jsi.holdsArrayBuffer v in
  (length arguments <> 2%nat \/ jsi.isString (nth 0 arguments jsi.Undefined) = false ->
   is_thrown result = true) /\
  (forall k v, arguments = [jsi.String k; v] -> supported v = false ->
   is_thrown result = true) /\
  (forall k v, arguments = [jsi.String k; v] -> supported v = true ->
   result = Returned jsi.Undefined).
Proof.
  cbn zeta. split; [ | split].
  - intros [Hcount | Hkey].
    + by destruct arguments as [ | a0 [ | a1 [ | a2 rest ] ] ].
    + destruct arguments as [ | a0 [ | a1 [ | a2 rest ] ] ]; cbn in *; try done.
      by destruct a0.
  - intros k v -> Hv.
    destruct v as [ | | | | | | | [ | | | ] ]; done.
  - intros k v -> Hv.
    destruct v as [ | | | | | | | [ | | | ] ]; done.
Qed.

Lemma set_argument_validation_witness :
  (length [jsi.String "name"] <> 2%nat \/
   jsi.isString (nth 0 [jsi.String "name"] jsi.Undefined) = false) /\
  is_thrown (outcome (run (invoke FnSet [jsi.String "name"]) reference.empty)) = true.
Proof.
  split; [left; cbn; lia | ].
  apply (proj1 (set_argument_validation reference.Store _ reference.empty
                  [jsi.String "name"])).
  left; cbn; lia.
Defined.

(** C10: when [set] throws, it has made no engine call at all, and the
    engine instance is in the state it was in before the call. *)
Theorem set_error_is_atomic T (E : MMKV T) (s : T) (arguments : list jsi.Value) :
  is_thrown (outcome (run (invoke FnSet arguments) s)) = true ->
  calls (run (invoke FnSet arguments) s) = [] /\
  final (run (invoke FnSet arguments) s) = s.
Proof.
  by_shape arguments.
Qed.

Lemma set_error_is_atomic_witness :
  is_thrown (outcome (run (invoke FnSet [jsi.String "name"; jsi.Null])
                        (reference.of_size 64))) = true /\
  calls (run (invoke FnSet [jsi.String "name"; jsi.Null]) (reference.of_size 64)) = [] /\
  final (run (invoke FnSet [jsi.String "name"; jsi.Null]) (reference.of_size 64))
  = reference.of_size 64.
Proof.
  split; [reflexivity | ].
  apply (set_error_is_atomic reference.Store _ (reference.of_size 64)
           [jsi.String "name"; jsi.Null]).
  reflexivity.
Defined.

(** ** trim *)

(** C6, the claim as stated fails: besides the engine's [trim], [trim()]
    performs [clearMemoryCache], a call made for its effect on the engine
    instance. *)
Lemma trim_also_clears_memory_cache :
  calls (run (invoke FnTrim []) reference.empty)
  = [mmkv.clearMemoryCache; mmkv.trim] /\
  List.filter mmkv.effectful (calls (run (invoke FnTrim []) reference.empty))
  <> [mmkv.trim].
Proof. split; [reflexivity | discriminate]. Qed.

(** C6, amended: [trim()] calls the engine's [clearMemoryCache] and then
    its [trim], makes no other engine call, and returns undefined. *)
Theorem trim_clears_cache_then_trims T (E : MMKV T) (s : T) (arguments : list jsi.Value) :
  run (invoke FnTrim arguments) s
  = mkRun (Returned jsi.Undefined)
      (perform mmkv.trim (perform mmkv.clearMemoryCache s).2).2
      [mmkv.clearMemoryCache; mmkv.trim].
Proof. reflexivity. Qed.

(** ** delete *)

(** C7: [delete(k)] makes the single engine call [removeValueForKey(k)] and
    returns undefined; on an engine that keeps its contract, what every
    reader returns for any other key is the same after the call as
    before. *)
Theorem delete_forwards_and_frames T (E : MMKV T) (C : MMKVContract T)
    (s : T) (k : string) :
  let deleted := run (invoke FnDelete [jsi.String k]) s in
  deleted = mkRun (Returned jsi.Undefined)
              (perform (mmkv.removeValueForKey k) s).2
              [mmkv.removeValueForKey k] /\
  forall (k' : string) (reader : HostFn),
    k' <> k -> In reader readers ->
    outcome (run (invoke reader [jsi.String k']) (final deleted))
    = outcome (run (invoke reader [jsi.String k']) s).
Proof.
  cbn zeta. split; [reflexivity | ].
  intros k' reader Hne Hreader.
  assert (Hne' : k <> k') by congruence.
  pose proof (getBool_remove_other s k k' false Hne') as HB.
  pose proof (getDouble_remove_other s k k' (S754_zero false) Hne') as HD.
  pose proof (getString_remove_other s k k' Hne') as HS.
  pose proof (getBytes_remove_other s k k' Hne') as HY.
  pose proof (containsKey_remove_other s k k' Hne') as HC.
  cbn in Hreader.
  destruct Hreader as [<- | [<- | [<- | [<- | [<- | [] ] ] ] ] ]; cbn in *.
  - rewrite HB. by destruct (negb _).
  - rewrite HD. by destruct (negb _).
  - rewrite HS. by destruct (negb _).
  - rewrite HY. by destruct (negb _).
  - by rewrite HC.
Qed.

Lemma delete_forwards_and_frames_witness :
  MMKVContract reference.Store /\
  "token" <> "darkMode" /\
  In FnGetString readers /\
  outcome (run (invoke FnGetString [jsi.String "token"])
             (final (run (invoke FnDelete [jsi.String "darkMode"]) sample_store)))
  = outcome (run (invoke FnGetString [jsi.String "token"]) sample_store).
Proof.
  split; [exact reference_contract | ].
  split; [discriminate | ].
  split; [cbn; tauto | ].
  apply (proj2 (delete_forwards_and_frames reference.Store _ reference_contract
                  sample_store "darkMode"));
    [discriminate | cbn; tauto].
Defined.

(** ** size *)

Lemma static_cast_int_small (n : Z) :
  0 <= n <= INT_MAX -> static_cast_int n = n.
Proof.
  unfold static_cast_int, INT_MAX. intros Hn.
  rewrite Z.mod_small by lia.
  destruct (Z.leb_spec n 2147483647); [done | lia].
Qed.

(** In general [size] is the engine's [actualSize] narrowed to [int]. *)
Lemma size_is_narrowed_actualSize T (E : MMKV T) (s : T) :
  run (get "size") s
  = mkRun (Returned (jsi.of_int (static_cast_int (perform mmkv.actualSize s).1)))
      (perform mmkv.actualSize s).2 [mmkv.actualSize].
Proof. reflexivity. Qed.

(** C8, the claim as stated fails: on an instance whose [actualSize] is
    2^31 bytes, [size] is the number -2147483648, not 2147483648. *)
Lemma size_wraps_beyond_INT_MAX :
  (perform mmkv.actualSize (reference.of_size 2147483648)).1 = 2147483648 /\
  outcome (run (get "size") (reference.of_size 2147483648))
  = Returned (jsi.Number (double_of_Z (-2147483648))) /\
  outcome (run (get "size") (reference.of_size 2147483648))
  <> Returned (jsi.Number (double_of_Z 2147483648)).
Proof. split; [reflexivity | split; [reflexivity | discriminate] ]. Qed.

(** C8, amended: whenever the engine's [actualSize] is at most [INT_MAX],
    reading [size] makes the single engine call [actualSize] and returns
    its value as a number. *)
Theorem size_is_actualSize T (E : MMKV T) (s : T) :
  0 <= (perform mmkv.actualSize s).1 <= INT_MAX ->
  outcome (run (get "size") s)
  = Returned (jsi.Number (double_of_Z (perform mmkv.actualSize s).1)) /\
  calls (run (get "size") s) = [mmkv.actualSize].
Proof.
  intros Hsmall. rewrite size_is_narrowed_actualSize. cbn [outcome calls].
  split; [ | reflexivity].
  unfold jsi.of_int. by rewrite static_cast_int_small.
Qed.

Lemma size_is_actualSize_witness :
  0 <= (perform mmkv.actualSize (reference.of_size 4096)).1 <= INT_MAX /\
  outcome (run (get "size") (reference.of_size 4096))
  = Returned (jsi.Number (double_of_Z 4096)).
Proof.
  assert (Hsmall : 0 <= (perform mmkv.actualSize (reference.of_size 4096)).1 <= INT_MAX)
    by (cbn; unfold INT_MAX; lia).
  split; [exact Hsmall | ].
  exact (proj1 (size_is_actualSize reference.Store _ (reference.of_size 4096) Hsmall)).
Defined.

(** ** Getters on an absent key *)

(** C9: on an engine that keeps its contract, for a key the engine does not
    contain, [getBoolean], [getNumber], [getString] and [getBuffer] each
    return undefined: no default value and no exception. *)
Theorem getters_undefined_when_absent T (E : MMKV T) (C : MMKVContract T)
    (s : T) (k : string) :
  (perform (mmkv.containsKey k) s).1 = false ->
  outcome (run (invoke FnGetBoolean [jsi.String k]) s) = Returned jsi.Undefined /\
  outcome (run (invoke FnGetNumber [jsi.String k]) s) = Returned jsi.Undefined /\
  outcome (run (invoke FnGetString [jsi.String k]) s) = Returned jsi.Undefined /\
  outcome (run (invoke FnGetBuffer [jsi.String k]) s) = Returned jsi.Undefined.
Proof.
  intros Habsent.
  pose proof (getBool_absent s k false Habsent) as HB.
  pose proof (getDouble_absent s k (S754_zero false) Habsent) as HD.
  pose proof (getString_absent s k Habsent) as HS.
  pose proof (getBytes_absent s k Habsent) as HY.
  cbn in *. rewrite HB, HD, HS, HY. done.
Qed.

Lemma getters_undefined_when_absent_witness :
  MMKVContract reference.Store /\
  (perform (mmkv.containsKey "missing") sample_store).1 = false /\
  outcome (run (invoke FnGetBoolean [jsi.String "missing"]) sample_store)
  = Returned jsi.Undefined.
Proof.
  split; [exact reference_contract | ].
  split; [reflexivity | ].
  apply (getters_undefined_when_absent reference.Store _ reference_contract
           sample_store "missing").
  reflexivity.
Defined.

(** * Further properties of the binding *)

(** Settles the [if] on the [hasValue] answer left by a getter. *)
Ltac split_hasValue :=
  repeat match goal with
         | |- context [if negb ?b then _ else _] => destruct b; cbn
         | H : context [if negb ?b then _ else _] |- _ => destruct b; cbn in H
         end.

(** Case analysis on an argument list, looking at the kind of a value only
    where the count alone does not settle the goal; [close] is tried on
    every case. *)
Ltac by_kind v close :=
  destruct v as [ | | | | | | | [ | | | ] ]; cbn in *; try solve [close].

Tactic Notation "by_arguments" ident(arguments) "using" tactic3(close) :=
  let a0 := fresh "a0" in
  let a1 := fresh "a1" in
  let a2 := fresh "a2" in
  let rest := fresh "rest" in
  destruct arguments as [ | a0 [ | a1 [ | a2 rest ] ] ]; cbn in *;
  try solve [close];
  try (by_kind a0 close; try by_kind a1 close).

(** ** Errors *)

(** Whenever any host function throws, it has made no engine call and the
    engine instance is as it was. *)
Theorem host_function_error_is_atomic T (E : MMKV T) (s : T)
    (f : HostFn) (arguments : list jsi.Value) :
  is_thrown (outcome (run (invoke f arguments) s)) = true ->
  calls (run (invoke f arguments) s) = [] /\
  final (run (invoke f arguments) s) = s.
Proof.
  destruct f; by_arguments arguments using done; split_hasValue; done.
Qed.

Lemma host_function_error_is_atomic_witness :
  is_thrown (outcome (run (invoke FnRecrypt [jsi.Number (double_of_Z 7)])
                        sample_store)) = true /\
  calls (run (invoke FnRecrypt [jsi.Number (double_of_Z 7)]) sample_store) = [] /\
  final (run (invoke FnRecrypt [jsi.Number (double_of_Z 7)]) sample_store)
  = sample_store.
Proof.
  split; [reflexivity | ].
  apply (host_function_error_is_atomic reference.Store _ sample_store FnRecrypt
           [jsi.Number (double_of_Z 7)]).
  reflexivity.
Defined.

(** A host function that takes a key accepts exactly one argument, a
    string; on anything else it throws the same fixed error, before any
    engine call. *)
Theorem key_function_validation T (E : MMKV T) (s : T)
    (f : HostFn) (arguments : list jsi.Value) :
  In f key_functions ->
  match arguments with
  | [jsi.String k] => is_thrown (outcome (run (invoke f arguments) s)) = false
  | _ => run (invoke f arguments) s
         = mkRun (Thrown "First argument ('key') has to be of type string!") s []
  end.
Proof.
  intros Hf. cbn in Hf.
  destruct Hf as [<- | [<- | [<- | [<- | [<- | [<- | [] ] ] ] ] ] ];
    by_arguments arguments using reflexivity; split_hasValue; reflexivity.
Qed.

Lemma key_function_validation_witness :
  In FnContains key_functions /\
  run (invoke FnContains [jsi.String "token"; jsi.String "extra"]) sample_store
  = mkRun (Thrown "First argument ('key') has to be of type string!") sample_store [].
Proof.
  split; [cbn; tauto | ].
  apply (key_function_validation reference.Store _ sample_store FnContains
           [jsi.String "token"; jsi.String "extra"]).
  cbn; tauto.
Defined.

Lemma In_by_eqb (message : string) (l : list string) :
  existsb (String.eqb message) l = true -> In message l.
Proof.
  intros [m [Hin Heq%String.eqb_eq] ]%existsb_exists. by subst m.
Qed.

Ltac known_message :=
  first [ exact I
        | left; vm_compute; reflexivity
        | right; split; reflexivity ].

(** The message of a thrown error, read off the outcome. *)
Lemma thrown_message_cases T (E : MMKV T) (s : T)
    (f : HostFn) (arguments : list jsi.Value) :
  match outcome (run (invoke f arguments) s) with
  | Returned _ => True
  | Thrown message =>
      existsb (String.eqb message) error_messages = true \/
      (f = FnRecrypt /\ message = recrypt_count_error (length arguments))
  end.
Proof.
  destruct f; by_arguments arguments using known_message;
    split_hasValue; known_message.
Qed.

(** Every error a host function throws is one of the binding's own: a
    fixed text of [error_messages] or the count error of [recrypt].  The
    kind checks of [asString] and [asObject] never fail. *)
Theorem thrown_messages_are_the_bindings T (E : MMKV T) (s : T)
    (f : HostFn) (arguments : list jsi.Value) (message : string) :
  outcome (run (invoke f arguments) s) = Thrown message ->
  In message error_messages \/
  (f = FnRecrypt /\ message = recrypt_count_error (length arguments)).
Proof.
  intros Hthrown.
  pose proof (thrown_message_cases T E s f arguments) as Hcases.
  rewrite Hthrown in Hcases.
  destruct Hcases as [Hfixed | Hcount]; [left | by right].
  by apply In_by_eqb.
Qed.

Lemma thrown_messages_are_the_bindings_witness :
  outcome (run (invoke FnRecrypt []) sample_store)
  = Thrown "Expected 1 argument (encryptionKey), but received 0!" /\
  (In "Expected 1 argument (encryptionKey), but received 0!" error_messages \/
   (FnRecrypt = FnRecrypt /\
    "Expected 1 argument (encryptionKey), but received 0!"
    = recrypt_count_error (length (@nil jsi.Value)))).
Proof.
  split; [reflexivity | ].
  apply (thrown_messages_are_the_bindings reference.Store _ sample_store
           FnRecrypt [] "Expected 1 argument (encryptionKey), but received 0!").
  reflexivity.
Defined.

(** The outcome of [set] in full: the key error for anything but two
    arguments with a string first; for a string key, undefined when the
    value is a boolean, number, string or ArrayBuffer, the object error for
    any other object, and the type error for any other value. *)
Theorem set_outcome T (E : MMKV T) (s : T) (arguments : list jsi.Value) :
  outcome (run (invoke FnSet arguments) s) =
  match arguments with
  | [jsi.String k; v] =>
      if jsi.isBool v || jsi.isNumber v || jsi.isString v || jsi.holdsArrayBuffer v
      then Returned jsi.Undefined
      else if jsi.isObject v
      then Thrown "MMKV::set: 'value' argument is an object, but not of type ArrayBuffer!"
      else Thrown "MMKV::set: 'value' argument is not of type bool, number, string or buffer!"
  | _ => Thrown "MMKV::set: First argument ('key') has to be of type string!"
  end.
Proof.
  by_arguments arguments using reflexivity.
Qed.

(** ** What reaches the engine *)

(** [set(k, v)] makes at most one engine call: the overload of [set] for
    the kind of [v], with the payload of [v] unchanged and under the key
    [k]; for an unsupported value it makes none. *)
Theorem set_marshals_value T (E : MMKV T) (s : T) (k : string) (v : jsi.Value) :
  calls (run (invoke FnSet [jsi.String k; v]) s) =
  match v with
  | jsi.Boolean b => [mmkv.set_bool b k]
  | jsi.Number d => [mmkv.set_double d k]
  | jsi.String x => [mmkv.set_string x k]
  | jsi.Object (jsi.ArrayBuffer data) => [mmkv.set_bytes data k]
  | _ => []
  end.
Proof.
  by destruct v as [ | | | | | | | [ | | | ] ].
Qed.

(** The host functions that read, and [getAllKeys], never make a call for
    its effect on the engine, whatever their arguments. *)
Theorem readers_never_modify T (E : MMKV T) (s : T)
    (f : HostFn) (arguments : list jsi.Value) :
  In f (FnGetAllKeys :: readers) ->
  Forall (fun c => mmkv.effectful c = false) (calls (run (invoke f arguments) s)).
Proof.
  intros Hf. cbn in Hf.
  destruct Hf as [<- | [<- | [<- | [<- | [<- | [<- | [] ] ] ] ] ] ];
    by_arguments arguments using (repeat constructor);
    split_hasValue; repeat constructor.
Qed.

Lemma readers_never_modify_witness :
  In FnGetString (FnGetAllKeys :: readers) /\
  Forall (fun c => mmkv.effectful c = false)
    (calls (run (invoke FnGetString [jsi.String "token"]) sample_store)).
Proof.
  split; [cbn; tauto | ].
  apply (readers_never_modify reference.Store _ sample_store FnGetString
           [jsi.String "token"]).
  cbn; tauto.
Defined.

(** Each reader called with a key makes exactly one engine call, the query
    of its own type for that key, and returns a value of its own kind:
    [getBoolean] a boolean or undefined, [getNumber] a number or undefined,
    [getString] a string or undefined, [getBuffer] an ArrayBuffer or
    undefined, [contains] always a boolean. *)
Theorem reader_queries_and_kinds T (E : MMKV T) (s : T) (k : string) :
  let result f := run (invoke f [jsi.String k]) s in
  (calls (result FnGetBoolean) = [mmkv.getBool k false] /\
   (outcome (result FnGetBoolean) = Returned jsi.Undefined \/
    exists b, outcome (result FnGetBoolean) = Returned (jsi.Boolean b))) /\
  (calls (result FnGetNumber) = [mmkv.getDouble k (S754_zero false)] /\
   (outcome (result FnGetNumber) = Returned jsi.Undefined \/
    exists d, outcome (result FnGetNumber) = Returned (jsi.Number d))) /\
  (calls (result FnGetString) = [mmkv.getString k] /\
   (outcome (result FnGetString) = Returned jsi.Undefined \/
    exists x, outcome (result FnGetString) = Returned (jsi.String x))) /\
  (calls (result FnGetBuffer) = [mmkv.getBytes k] /\
   (outcome (result FnGetBuffer) = Returned jsi.Undefined \/
    exists data, outcome (result FnGetBuffer)
                 = Returned (jsi.Object (jsi.ArrayBuffer data)))) /\
  (calls (result FnContains) = [mmkv.containsKey k] /\
   exists b, outcome (result FnContains) = Returned (jsi.Boolean b)).
Proof.
  cbn. repeat split; split_hasValue; eauto.
Qed.

(** [recrypt] with a string forwards that string to the engine's [reKey] in
    a single call; [recrypt(undefined)] is the same as [recrypt] with the
    empty string: the same engine call, final state and result. *)
Theorem recrypt_forwards_key T (E : MMKV T) (s : T) :
  (forall x : string,
     run (invoke FnRecrypt [jsi.String x]) s
     = mkRun (Returned jsi.Undefined) (perform (mmkv.reKey x) s).2 [mmkv.reKey x]) /\
  run (invoke FnRecrypt [jsi.Undefined]) s
  = run (invoke FnRecrypt [jsi.String ""]) s.
Proof. split; reflexivity. Qed.

(** The host functions declared without parameters do not look at their
    arguments: they never throw, and any argument list gives the run of the
    empty one. *)
Theorem nullary_functions_ignore_arguments T (E : MMKV T) (s : T)
    (f : HostFn) (arguments : list jsi.Value) :
  In f nullary_functions ->
  run (invoke f arguments) s = run (invoke f []) s /\
  is_thrown (outcome (run (invoke f arguments) s)) = false.
Proof.
  intros Hf. cbn in Hf.
  by destruct Hf as [<- | [<- | [<- | [] ] ] ].
Qed.

Lemma nullary_functions_ignore_arguments_witness :
  In FnGetAllKeys nullary_functions /\
  run (invoke FnGetAllKeys [jsi.Number (double_of_Z 3); jsi.Null]) sample_store
  = run (invoke FnGetAllKeys []) sample_store.
Proof.
  split; [cbn; tauto | ].
  apply (nullary_functions_ignore_arguments reference.Store _ sample_store
           FnGetAllKeys [jsi.Number (double_of_Z 3); jsi.Null]).
  cbn; tauto.
Defined.

(** ** Property access *)

(** Case analysis along the chain of name tests of [get]. *)
Ltac by_name propName :=
  unfold get;
  repeat match goal with
         | |- context [String.eqb propName ?lit] =>
             destruct (String.eqb_spec propName lit) as [-> | ?]
         | H : context [String.eqb propName ?lit] |- _ =>
             destruct (String.eqb_spec propName lit) as [-> | ?]
         end.

(** Reading a property never throws and never changes the engine through a
    call made for effect: only [size] consults the engine, with the single
    query [actualSize]; every other name, known or not, is answered without
    an engine call. *)
Theorem get_is_a_query T (E : MMKV T) (s : T) (propName : string) :
  is_thrown (outcome (run (get propName) s)) = false /\
  calls (run (get propName) s)
  = (if String.eqb propName "size" then [mmkv.actualSize] else []) /\
  (propName <> "size" -> final (run (get propName) s) = s).
Proof.
  destruct (String.eqb_spec propName "size") as [-> | Hsize].
  - by repeat split.
  - by_name propName; by repeat split.
Qed.

(** The names [get] resolves are the advertised ones with [clearAll] in the
    place of [deleteAll]: [get] answers something other than undefined
    exactly for the names of [getPropertyNames] except [deleteAll], and for
    [clearAll]. *)
Theorem get_resolves_exactly T (E : MMKV T) (s : T) (propName : string) :
  outcome (run (get propName) s) <> Returned jsi.Undefined <->
  (In propName getPropertyNames /\ propName <> "deleteAll") \/ propName = "clearAll".
Proof.
  by_name propName; cbn;
    try (split; [intros _; first [by right | left; split; [tauto | done] ]
                | intros _; discriminate ]).
  split; [done | ].
  intros [ [Hin Hne] | Heq]; [ | done].
  repeat destruct Hin as [Heq | Hin]; done.
Qed.

(** A function answered by [get] is named after the property, with the
    prefix ["MMKV."], and enforces its declared parameter count when that is
    not zero: called with any other number of arguments it throws. *)
Theorem get_function_name_and_arity
    (propName name : string) (paramCount : nat) (body : HostFn) :
  get propName = Ret (createFromHostFunction name paramCount body) ->
  name = "MMKV." +:+ propName /\
  (paramCount <> 0%nat ->
   forall T (E : MMKV T) (s : T) (arguments : list jsi.Value),
     length arguments <> paramCount ->
     is_thrown (outcome (run (invoke body arguments) s)) = true).
Proof.
  intros Hget. revert Hget. by_name propName; cbn; intros [= <- <- <-];
    (split; [reflexivity | ]); intros Hparam T E s arguments Hcount;
    try done;
    by destruct arguments as [ | a0 [ | a1 [ | a2 rest ] ] ].
Qed.

Lemma get_function_name_and_arity_witness :
  get "getString" = Ret (createFromHostFunction "MMKV.getString" 1 FnGetString) /\
  "MMKV.getString" = "MMKV." +:+ "getString".
Proof.
  split; [reflexivity | ].
  exact (proj1 (get_function_name_and_arity "getString" "MMKV.getString" 1
                  FnGetString eq_refl)).
Defined.

(** ** The narrowing of size *)

Lemma static_cast_int_range (n : Z) :
  INT_MIN <= static_cast_int n <= INT_MAX /\
  static_cast_int n mod 2 ^ 32 = n mod 2 ^ 32.
Proof.
  unfold static_cast_int, INT_MIN, INT_MAX.
  pose proof (Z.mod_pos_bound n (2 ^ 32) ltac:(lia)) as Hbound.
  destruct (Z.leb_spec (n mod 2 ^ 32) 2147483647) as [Hlow | Hhigh].
  - split; [lia | ]. by rewrite Z.mod_mod.
  - split; [lia | ].
    replace (n mod 2 ^ 32 - 2 ^ 32) with (n mod 2 ^ 32 + (-1) * 2 ^ 32) by lia.
    by rewrite Z.mod_add, Z.mod_mod.
Qed.

(** Whatever the engine reports as [actualSize], [size] is the number of an
    [int]: an integer between [INT_MIN] and [INT_MAX] that agrees with
    [actualSize] modulo 2^32; it is negative exactly when the low 32 bits of
    [actualSize] are 2^31 or more. *)
Theorem size_is_an_int T (E : MMKV T) (s : T) :
  let size := (perform mmkv.actualSize s).1 in
  exists i : Z,
    outcome (run (get "size") s) = Returned (jsi.of_int i) /\
    INT_MIN <= i <= INT_MAX /\
    i mod 2 ^ 32 = size mod 2 ^ 32 /\
    (i < 0 <-> 2 ^ 31 <= size mod 2 ^ 32).
Proof.
  intros size. exists (static_cast_int size).
  pose proof (static_cast_int_range size) as [Hrange Hmod].
  split; [reflexivity | split; [exact Hrange | split; [exact Hmod | ] ] ].
  unfold static_cast_int, INT_MAX.
  pose proof (Z.mod_pos_bound size (2 ^ 32) ltac:(lia)) as Hbound.
  destruct (Z.leb_spec (size mod 2 ^ 32) 2147483647); lia.
Qed.

(** ** Construction *)

(** With an invalid mode the constructor throws the mode error whatever the
    rest of the configuration and whatever [mmkvWithID] would answer: no
    instance is created. *)
Theorem constructor_rejects_invalid_mode T (F : MMKVFactory T)
    (config : react.MMKVConfig) (raw : Z) :
  react.mode config = Some (react.InvalidMode raw) ->
  MmkvHostObject_new config = Thrown "Invalid MMKV Mode value!".
Proof.
  intros Hmode. unfold MmkvHostObject_new, getMMKVMode. by rewrite Hmode.
Qed.

Lemma constructor_rejects_invalid_mode_witness :
  react.mode invalid_mode_config = Some (react.InvalidMode 2) /\
  MmkvHostObject_new (T := reference.Store) invalid_mode_config
  = Thrown "Invalid MMKV Mode value!".
Proof.
  split; [reflexivity | ].
  exact (constructor_rejects_invalid_mode reference.Store _ invalid_mode_config 2
           eq_refl).
Defined.

(** The constructor succeeds exactly when the mode is valid and
    [mmkvWithID] answers an instance for the id, the resolved mode and the
    key and path pointers; the host object then holds that instance. *)
Theorem constructor_succeeds_iff T (F : MMKVFactory T)
    (config : react.MMKVConfig) (object : MmkvHostObject T) :
  MmkvHostObject_new config = Returned object <->
  exists mode,
    getMMKVMode config = Returned mode /\
    mmkvWithID (react.id config) mode
      (ptr_if_nonempty (default "" (react.encryptionKey config)))
      (ptr_if_nonempty (default "" (react.path config)))
    = Some (instance object).
Proof.
  unfold MmkvHostObject_new. destruct object as [inst]. cbn [instance].
  destruct (getMMKVMode config) as [mode | message].
  - destruct (mmkvWithID _ mode _ _) as [created | ] eqn:Hcreate.
    + split.
      * intros [= ->]. by exists mode.
      * intros (mode' & [= <-] & Hsome). rewrite Hcreate in Hsome.
        by injection Hsome as ->.
    + split.
      * by repeat case_match.
      * intros (mode' & [= <-] & Hsome). by rewrite Hcreate in Hsome.
  - split; [done | ]. by intros (mode' & Hmode & _).
Qed.

(** The constructor reads the configuration only through its id, its
    resolved mode, and its path and encryption key with an absent value
    taken as the empty string: an empty path or key is the same as none,
    and an absent mode the same as single-process. *)
Theorem constructor_reads_defaults T (F : MMKVFactory T)
    (c1 c2 : react.MMKVConfig) :
  react.id c1 = react.id c2 ->
  getMMKVMode c1 = getMMKVMode c2 ->
  default "" (react.path c1) = default "" (react.path c2) ->
  default "" (react.encryptionKey c1) = default "" (react.encryptionKey c2) ->
  MmkvHostObject_new c1 = MmkvHostObject_new c2.
Proof.
  intros Hid Hmode Hpath Hkey. unfold MmkvHostObject_new.
  by rewrite Hid, Hmode, Hpath, Hkey.
Qed.

Lemma constructor_reads_defaults_witness :
  react.id empty_optionals_config = react.id absent_optionals_config /\
  getMMKVMode empty_optionals_config = getMMKVMode absent_optionals_config /\
  default "" (react.path empty_optionals_config)
  = default "" (react.path absent_optionals_config) /\
  default "" (react.encryptionKey empty_optionals_config)
  = default "" (react.encryptionKey absent_optionals_config) /\
  MmkvHostObject_new (T := reference.Store) empty_optionals_config
  = MmkvHostObject_new absent_optionals_config.
Proof.
  repeat (split; [reflexivity | ]).
  apply (constructor_reads_defaults reference.Store _
           empty_optionals_config absent_optionals_config); reflexivity.
Defined.
